(** * projen: workflow step builders and the TypeScript projenrc generator

    A shallow embedding of
      - [WorkflowSteps] (github/workflow-steps.ts): the builders [checkout],
        [setupGitIdentity], [tagExists], [uploadArtifact] and the private
        adapter [buildJobStepConfig];
      - [Projenrc.generateProjenrc] (src/typescript/projenrc.ts): the
        file-existence-gated generator of [.projenrc.ts].

    JavaScript objects are association lists in property-insertion order;
    the filesystem is a finite map from absolute paths to file contents. *)

From Stdlib Require Import String Ascii ZArith List Bool Lia.
From stdpp Require Import gmap strings list fin_maps.

Local Open Scope string_scope.
Local Open Scope list_scope.

(* ===================================================================== *)
(** ** JavaScript values and objects                                      *)
(* ===================================================================== *)

Module JS.

(** The values that travel through the option objects: [undefined],
    [null], booleans, numbers, strings and plain objects.  The numbers of
    these interfaces (fetch depth, days, minutes, compression level) are
    passed through untouched, so they are kept as integers. *)
#[local] Set Warnings "-register-all".
Inductive Value : Type :=
| Undefined
| Null
| Bool (b : bool)
| Num (n : Z)
| Str (s : string)
| Obj (props : list (string * Value)).

(** An object: its own enumerable properties, in insertion order. *)
Abbreviation Object := (list (string * Value)).

(** [v === undefined || v === null] *)
Definition nullish (v : Value) : bool :=
  match v with
  | Undefined | Null => true
  | _ => false
  end.

(** ToBoolean, as used by [cond ? a : b]. *)
Definition truthy (v : Value) : bool :=
  match v with
  | Undefined | Null => false
  | Bool b => b
  | Num n => negb (n =? 0)%Z
  | Str s => negb (String.eqb s "")
  | Obj _ => true
  end.

(** [o.k] on an object: the first (only) property named [k], else
    [undefined]. *)
Fixpoint prop (k : string) (o : Object) : Value :=
  match o with
  | [] => Undefined
  | (k', v) :: rest => if String.eqb k' k then v else prop k rest
  end.

(** [k in o] for own properties. *)
Fixpoint has (k : string) (o : Object) : bool :=
  match o with
  | [] => false
  | (k', _) :: rest => if String.eqb k' k then true else has k rest
  end.

(** [v.k] on a value that is not nullish: a plain object yields its
    property, a primitive has none of the names read here. *)
Definition get (v : Value) (k : string) : Value :=
  match v with
  | Obj o => prop k o
  | _ => Undefined
  end.

(** Optional chaining [v?.k]. *)
Definition opt_get (v : Value) (k : string) : Value :=
  if nullish v then Undefined else get v k.

(** Nullish coalescing [v ?? d]. *)
Definition coalesce (v d : Value) : Value :=
  if nullish v then d else v.

(** [o[k] = v] while an object literal is built: an existing property
    keeps its position and takes the new value, a new one goes last. *)
Fixpoint set (k : string) (v : Value) (o : Object) : Object :=
  match o with
  | [] => [(k, v)]
  | (k', v') :: rest =>
      if String.eqb k' k then (k', v) :: rest else (k', v') :: set k v rest
  end.

(** An object literal [{ ...base, k1: v1, ..., kn: vn }]: the entries are
    defined left to right on a copy of [base]. *)
Definition literal (base : Object) (entries : list (string * Value)) : Object :=
  fold_left (fun o kv => set (fst kv) (snd kv) o) entries base.

(** [Object.keys(o)] *)
Definition keys (o : Object) : list string := map fst o.

End JS.

(* ===================================================================== *)
(** ** Strings                                                            *)
(* ===================================================================== *)

Module Str.

(** The line feed of ["\n"] and the double quote of the templates. *)
Definition nl : string := String (ascii_of_nat 10) EmptyString.
Definition dq : string := String (ascii_of_nat 34) EmptyString.

(** [Array.prototype.join(sep)] on an array of strings. *)
Definition join (sep : string) (parts : list string) : string :=
  String.concat sep parts.

(** [String.prototype.split(sep)] for a one-character separator: every
    occurrence of the separator ends a segment, so the result always has
    one segment more than the string has separators. *)
Fixpoint split (sep : ascii) (s : string) : list string :=
  match s with
  | EmptyString => [EmptyString]
  | String c rest =>
      if Ascii.eqb c sep then EmptyString :: split sep rest
      else match split sep rest with
           | seg :: segs => String c seg :: segs
           | [] => [String c EmptyString]
           end
  end.

(** [s] has no occurrence of the character [c]. *)
Fixpoint free_of (c : ascii) (s : string) : bool :=
  match s with
  | EmptyString => true
  | String c' rest => negb (Ascii.eqb c' c) && free_of c rest
  end.

End Str.

(* ===================================================================== *)
(** ** util/object: removeNullOrUndefinedProperties                       *)
(* ===================================================================== *)

(** Modelled from the spec: [removeNullOrUndefinedProperties] lives in
    util/object.ts, outside the two files embedded here.  The
    specification describes it as the generic compaction of a key-value
    mapping: build the mapping, filter out the entries whose value is
    absent (null or undefined), keep the others in order. *)
Definition removeNullOrUndefinedProperties (obj : JS.Object) : JS.Object :=
  filter (fun kv => JS.nullish (snd kv) = false) obj.

(* ===================================================================== *)
(** ** github/workflow-steps.ts                                           *)
(* ===================================================================== *)

Module WorkflowSteps.
Import JS.

(** Simple adapter to ensure we only include the necessary fields for a
    JobStepConfiguration. *)
Definition buildJobStepConfig (options : Object) : Object :=
  literal []
    [ ("continueOnError", prop "continueOnError" options);
      ("env", prop "env" options);
      ("id", prop "id" options);
      ("if", prop "if" options);
      ("name", prop "name" options);
      ("timeoutMinutes", prop "timeoutMinutes" options);
      ("workingDirectory", prop "workingDirectory" options) ].

(** The fields [buildJobStepConfig] copies. *)
Definition allowlist : list string :=
  [ "continueOnError"; "env"; "id"; "if"; "name"; "timeoutMinutes";
    "workingDirectory" ].

(** The local [checkoutWith] of [checkout]. *)
Definition checkoutWith (options : Object) : Object :=
  removeNullOrUndefinedProperties
    (literal []
       ([ ("fetch-depth", opt_get (prop "with" options) "fetchDepth");
          ("token", opt_get (prop "with" options) "token");
          ("ref", opt_get (prop "with" options) "ref");
          ("repository", opt_get (prop "with" options) "repository") ]
        ++ (if truthy (opt_get (prop "with" options) "lfs")
            then [ ("lfs", Bool true) ]
            else []))).

(** Checks out a repository. [checkout()] without an argument is
    [checkout({})]. *)
Definition checkout (options : Object) : Object :=
  literal
    (buildJobStepConfig
       (literal options
          [ ("name", coalesce (prop "name" options) (Str "Checkout")) ]))
    [ ("uses", Str "actions/checkout@v3");
      ("with", if (0 <? length (keys (checkoutWith options)))%nat
               then Obj (checkoutWith options)
               else Undefined) ].

(** [GitIdentity] of task-workflow.ts: a user name and an email. *)
Record GitIdentity : Type := mkGitIdentity {
  identityName : string;
  identityEmail : string
}.

(** Configures the git identity (user name and email).  The required
    [gitIdentity] of the options is passed next to their common fields. *)
Definition setupGitIdentity (options : Object) (gitIdentity : GitIdentity)
  : Object :=
  literal
    (buildJobStepConfig
       (literal options
          [ ("name", coalesce (prop "name" options) (Str "Set git identity")) ]))
    [ ("run",
       Str (Str.join Str.nl
              [ "git config user.name " +:+ Str.dq
                  +:+ identityName gitIdentity +:+ Str.dq;
                "git config user.email " +:+ Str.dq
                  +:+ identityEmail gitIdentity +:+ Str.dq ])) ].

(** The three local templates of [tagExists]. *)
Definition checkTag (remoteTag : string) : string :=
  "git ls-remote -q --exit-code --tags origin " +:+ remoteTag.

Definition varIsSet (variable : string) : string :=
  "[ ! -z " +:+ Str.dq +:+ "$" +:+ variable +:+ Str.dq +:+ " ]".

Definition setOutput (value : bool) : string :=
  "(echo " +:+ Str.dq +:+ "exists=" +:+ (if value then "true" else "false")
    +:+ Str.dq +:+ " >> $GITHUB_OUTPUT)".

(** The lines of the script of [tagExists], before they are joined. *)
Definition tagExistsLines (tag : string) : list string :=
  [ "TAG=" +:+ tag;
    "(" +:+ varIsSet "TAG" +:+ " && " +:+ checkTag "$TAG" +:+ " && "
      +:+ setOutput true +:+ ") || " +:+ setOutput false;
    "cat $GITHUB_OUTPUT" ].

(** Checks if a tag exists. *)
Definition tagExists (tag : string) (options : Object) : Object :=
  literal
    (buildJobStepConfig
       (literal options
          [ ("name", coalesce (prop "name" options) (Str "Check if tag exists"));
            ("id", coalesce (prop "id" options) (Str "check-tag")) ]))
    [ ("run", Str (Str.join Str.nl (tagExistsLines tag))) ].

(** The local [uploadArtifactWith] of [uploadArtifact]. *)
Definition uploadArtifactWith (options : Object) : Object :=
  removeNullOrUndefinedProperties
    (literal []
       [ ("name", opt_get (prop "with" options) "name");
         ("path", opt_get (prop "with" options) "path");
         ("overwrite",
          coalesce (opt_get (prop "with" options) "overwrite") (Bool true));
         ("if-no-files-found", opt_get (prop "with" options) "ifNoFilesFound");
         ("retention-days", opt_get (prop "with" options) "retentionDays");
         ("compression-level",
          opt_get (prop "with" options) "compressionLevel") ]).

(** Uploads an artifact. *)
Definition uploadArtifact (options : Object) : Object :=
  literal
    (buildJobStepConfig
       (literal options
          [ ("name", coalesce (prop "name" options) (Str "Upload artifact")) ]))
    [ ("uses", Str "actions/upload-artifact@v4");
      ("with", Obj (uploadArtifactWith options)) ].

(** The parameter map of an emitted step: the properties of its [with]
    object, none when [with] is not an object. *)
Definition withOf (step : Object) : Object :=
  match prop "with" step with
  | Obj w => w
  | _ => []
  end.

(** The inputs named [names] are all missing from [options.with]. *)
Definition inputsAbsent (names : list string) (options : Object) : bool :=
  forallb (fun k => nullish (opt_get (prop "with" options) k)) names.

(** The inputs of [checkout], all optional. *)
Definition checkoutInputs : list string :=
  [ "fetchDepth"; "token"; "ref"; "repository"; "lfs" ].

(** The optional inputs of [uploadArtifact] ([path] is required). *)
Definition uploadOptionalInputs : list string :=
  [ "name"; "overwrite"; "ifNoFilesFound"; "retentionDays";
    "compressionLevel" ].

(** No property of the object is null or undefined. *)
Definition allPresent (o : Object) : Prop :=
  Forall (fun kv => nullish (snd kv) = false) o.

(** The four plain inputs of [checkout], as its literal lists them
    before the spread of the [lfs] entry. *)
Definition checkoutPlain (options : Object) : Object :=
  [ ("fetch-depth", opt_get (prop "with" options) "fetchDepth");
    ("token", opt_get (prop "with" options) "token");
    ("ref", opt_get (prop "with" options) "ref");
    ("repository", opt_get (prop "with" options) "repository") ].

End WorkflowSteps.

(* ===================================================================== *)
(** ** typescript/projenrc.ts                                             *)
(* ===================================================================== *)

Module Projenrc.

(** *** The world the generator acts on *)

(** The calls made to the filesystem module. *)
Inductive FsCall : Type :=
| ExistsSync (path : string)
| OutputFileSync (path data : string).

(** Files by absolute path, the filesystem calls made so far (oldest
    first) and the messages given to [logger.info]. *)
Record World : Type := mkWorld {
  files : gmap string string;
  calls : list FsCall;
  infos : list string
}.

(** A call either returns or throws. *)
Inductive Outcome (E A : Type) : Type :=
| Returned (a : A)
| Thrown (e : E).
Arguments Returned {E A} a.
Arguments Thrown {E A} e.

Definition Eff (E A : Type) : Type := World -> Outcome E A * World.

Definition ret {E A} (a : A) : Eff E A := fun w => (Returned a, w).

Definition bind {E A B} (m : Eff E A) (k : A -> Eff E B) : Eff E B :=
  fun w =>
    match m w with
    | (Returned a, w') => k a w'
    | (Thrown e, w') => (Thrown e, w')
    end.

(** A pure call that may throw. *)
Definition lift {E A} (r : E + A) : Eff E A :=
  fun w =>
    match r with
    | inl e => (Thrown e, w)
    | inr a => (Returned a, w)
    end.

(** Sequencing is written with the monad notation [x ← m; k] and
    [m ;; k]. *)
#[global] Instance eff_ret {E} : MRet (Eff E) := fun A a => ret a.
#[global] Instance eff_bind {E} : MBind (Eff E) := fun A B k m => bind m k.

(** [existsSync(path)] *)
Definition existsSync {E} (path : string) : Eff E bool :=
  fun w =>
    (Returned (bool_decide (is_Some (files w !! path))),
     mkWorld (files w) (calls w ++ [ExistsSync path]) (infos w)).

(** [outputFileSync(path, data)]: the whole file is written, replacing
    what was there. *)
Definition outputFileSync {E} (path data : string) : Eff E unit :=
  fun w =>
    (Returned tt,
     mkWorld (<[path := data]> (files w))
             (calls w ++ [OutputFileSync path data]) (infos w)).

(** [logger.info(message)] *)
Definition logger_info {E} (message : string) : Eff E unit :=
  fun w => (Returned tt, mkWorld (files w) (calls w) (infos w ++ [message])).

(** The writes among the filesystem calls. *)
Definition writes (cs : list FsCall) : list (string * string) :=
  flat_map (fun c => match c with
                     | OutputFileSync p d => [(p, d)]
                     | ExistsSync _ => []
                     end) cs.

(** [arr.push(...items)]: the items are appended; a call without
    arguments appends nothing. *)
Definition push (arr items : list string) : list string := arr ++ items.

(** *** The collaborators

    [renderJavaScriptOptions] (javascript/render-options.ts), the import
    collection it returns and [path.resolve] are declared in other files;
    the generator is embedded over any implementation of them.  A render
    either throws or yields the rendered options and the imports they
    need.  An array element that may be missing ([parts[1]]) reaches
    [imports.add] as an optional string. *)
Class Collaborators : Type := {
  Args : Type;
  TypeHint : Type;
  Comments : Type;
  RenderError : Type;
  ModuleImports : Type;
  renderJavaScriptOptions :
    Args -> TypeHint -> Comments -> RenderError + (string * ModuleImports);
  imports_add : option string -> option string -> ModuleImports -> ModuleImports;
  asEsmImports : ModuleImports -> list string;
  resolve : string -> string -> string
}.

Section Generator.
Context {C : Collaborators}.

(** [project.initProject] *)
Record Bootstrap : Type := mkBootstrap {
  fqn : string;
  args : Args;
  type : TypeHint;
  comments : Comments
}.

(** What the component reads of itself and of its project:
    [this.project.outdir], [this.project.initProject], [this.rcfile]. *)
Record Component : Type := mkComponent {
  outdir : string;
  initProject : option Bootstrap;
  rcfile : string
}.

(** The path the generator checks and writes. *)
Definition rcpath (this : Component) : string :=
  resolve (outdir this) (rcfile this).

(** [bootstrap.fqn.split(".")] and the three names taken from it. *)
Definition parts (b : Bootstrap) : list string := Str.split "." (fqn b).
Definition moduleName (b : Bootstrap) : option string := parts b !! 0%nat.
Definition importName (b : Bootstrap) : option string := parts b !! 1%nat.
Definition className (b : Bootstrap) : string :=
  Str.join "." (drop 1 (parts b)).

(** The statement that constructs the project. *)
Definition constructorLine (className renderedOptions : string) : string :=
  "const project = new " +:+ className +:+ "(" +:+ renderedOptions +:+ ");".

(** The array [lines] as the generator fills it. *)
Definition fileLines (b : Bootstrap) (renderedOptions : string)
           (imports : ModuleImports) : list string :=
  let lines := [] in
  let lines := push lines (asEsmImports imports) in
  let lines := push lines [] in
  let lines := push lines [constructorLine (className b) renderedOptions] in
  let lines := push lines [] in
  let lines := push lines ["project.synth();"] in
  lines.

Definition generateProjenrc (this : Component) : Eff RenderError unit :=
  let rcfile := resolve (outdir this) (rcfile this) in
  found ← existsSync rcfile;
  if found : bool then ret tt (* already exists *)
  else
    match initProject this with
    | None => ret tt
    | Some bootstrap =>
        rendered ← lift (renderJavaScriptOptions
                           (args bootstrap) (type bootstrap)
                           (comments bootstrap));
        let renderedOptions := fst rendered in
        let imports := snd rendered in
        let imports :=
          imports_add (moduleName bootstrap) (importName bootstrap) imports in
        outputFileSync rcfile
          (Str.join Str.nl (fileLines bootstrap renderedOptions imports)) ;;
        logger_info ("Project definition file was created at " +:+ rcfile)
    end.

(** The world after a call that only looked for the file. *)
Definition checked (this : Component) (w : World) : World :=
  mkWorld (files w) (calls w ++ [ExistsSync (rcpath this)]) (infos w).

(** The world after a call that looked for the file, wrote [data] to
    it and logged the notice. *)
Definition written (this : Component) (data : string) (w : World) : World :=
  mkWorld (<[rcpath this := data]> (files w))
          ((calls w ++ [ExistsSync (rcpath this)])
             ++ [OutputFileSync (rcpath this) data])
          (infos w
             ++ ["Project definition file was created at " +:+ rcpath this]).

End Generator.

(** The layout of the file as the specification words it: the import
    statements, a blank separator, the constructor statement, a blank
    separator, the trailing invocation. *)
Definition specLayout (importLines : list string) (ctor : string) : string :=
  Str.join Str.nl (importLines ++ [""; ctor; ""; "project.synth();"]).

End Projenrc.

(* ===================================================================== *)
(** ** The import collection and a renderer to run the generator with     *)
(* ===================================================================== *)

Module Reference.

(** Modelled from the spec: the import collection that
    [renderJavaScriptOptions] returns is declared outside the two files
    embedded here.  The specification asks for
    [add(module, symbol)] and for a finite sequence of import statements,
    one per module, in insertion order, the symbol names of a module
    merged without repeats.  A name may be missing ([undefined]): joined
    into the symbol list it reads as the empty string, interpolated as
    the module it reads as [undefined]. *)
Definition Imports : Type := list (option string * list (option string)).

Fixpoint add (module symbol : option string) (imports : Imports) : Imports :=
  match imports with
  | [] => [(module, [symbol])]
  | (m, symbols) :: rest =>
      if bool_decide (m = module)
      then (m, if bool_decide (symbol ∈ symbols)
               then symbols else symbols ++ [symbol]) :: rest
      else (m, symbols) :: add module symbol rest
  end.

Definition statement (entry : option string * list (option string)) : string :=
  "import { " +:+ Str.join ", " (map (default "") (snd entry)) +:+ " } from "
    +:+ Str.dq +:+ default "undefined" (fst entry) +:+ Str.dq +:+ ";".

(** A renderer that is given the text to produce, or nothing, in which
    case it throws; it asks for no import of its own. *)
Definition render (args : option string) (_ _ : unit)
  : string + (string * Imports) :=
  match args with
  | Some rendered => inr (rendered, [])
  | None => inl "cannot render"
  end.

(** [path.resolve] of a file name against an absolute directory. *)
Definition resolve (dir file : string) : string := dir +:+ "/" +:+ file.

#[global] Instance collaborators : Projenrc.Collaborators := {|
  Projenrc.Args := option string;
  Projenrc.TypeHint := unit;
  Projenrc.Comments := unit;
  Projenrc.RenderError := string;
  Projenrc.ModuleImports := Imports;
  Projenrc.renderJavaScriptOptions := render;
  Projenrc.imports_add := add;
  Projenrc.asEsmImports := map statement;
  Projenrc.resolve := resolve
|}.

(** A project initialised from [fqn] with the given argument text, or
    with arguments that cannot be rendered. *)
Definition component_bootstrap (fqn : string) (args : option string)
  : Projenrc.Bootstrap :=
  Projenrc.mkBootstrap fqn args tt tt.

Definition component (fqn : string) (args : option string)
  : Projenrc.Component :=
  Projenrc.mkComponent "/repo" (Some (component_bootstrap fqn args))
    ".projenrc.ts".

Definition emptyWorld : Projenrc.World := Projenrc.mkWorld ∅ [] [].

(** A world in which the project definition file is already there. *)
Definition userWorld : Projenrc.World :=
  Projenrc.mkWorld {[ "/repo/.projenrc.ts" := "// mine" ]} [] [].

End Reference.

(* ===================================================================== *)
(** ** The and-or list of the tag check                                   *)
(* ===================================================================== *)

Module Sh.

(** The shape of the second script line: simple commands, subshell
    groups and the left-associative [&&] / [||] of the shell. *)
Inductive Cmd : Type :=
| Simple (words : string)
| Group (c : Cmd)
| AndIf (l r : Cmd)
| OrIf (l r : Cmd).

Fixpoint render (c : Cmd) : string :=
  match c with
  | Simple words => words
  | Group c => "(" +:+ render c +:+ ")"
  | AndIf l r => render l +:+ " && " +:+ render r
  | OrIf l r => render l +:+ " || " +:+ render r
  end.

(** Running a command: whether it exits with status 0 and the simple
    commands that ran, given which simple commands succeed.  [l && r]
    runs [r] only after [l] succeeded, [l || r] only after [l] failed. *)
Fixpoint run (succeeds : string -> bool) (c : Cmd) : bool * list string :=
  match c with
  | Simple words => (succeeds words, [words])
  | Group c => run succeeds c
  | AndIf l r =>
      let (ok, ran) := run succeeds l in
      if ok then let (ok', ran') := run succeeds r in (ok', ran ++ ran')
      else (false, ran)
  | OrIf l r =>
      let (ok, ran) := run succeeds l in
      if ok then (true, ran)
      else let (ok', ran') := run succeeds r in (ok', ran ++ ran')
  end.

Definition testTag : string := "[ ! -z " +:+ Str.dq +:+ "$TAG" +:+ Str.dq +:+ " ]".
Definition queryTag : string := "git ls-remote -q --exit-code --tags origin $TAG".
Definition echoExists (value : string) : string :=
  "echo " +:+ Str.dq +:+ "exists=" +:+ value +:+ Str.dq +:+ " >> $GITHUB_OUTPUT".

(** The second line of the script, parsed. *)
Definition tagCheck : Cmd :=
  OrIf (Group (AndIf (AndIf (Simple testTag) (Simple queryTag))
                     (Group (Simple (echoExists "true")))))
       (Group (Simple (echoExists "false"))).

(** A run in which the variable test and the remote query end as given
    and every other command (the two echoes) succeeds. *)
Definition runtime (varSet tagOnRemote : bool) (words : string) : bool :=
  if String.eqb words testTag then varSet
  else if String.eqb words queryTag then tagOnRemote
  else true.

(** The output assignments among the commands that ran. *)
Definition assignments (ran : list string) : list string :=
  List.filter (fun words => String.eqb words (echoExists "true")
                            || String.eqb words (echoExists "false")) ran.

End Sh.

(* ===================================================================== *)
(** ** typescript/projenrc.ts: the component and its lifecycle            *)
(* ===================================================================== *)

Module Lifecycle.
Import Projenrc.

(** [ProjenrcOptions]: both fields may be left out. *)
Record ProjenrcOptions : Type := mkOptions {
  filename : option string;
  projenCodeDir : option string
}.

(** The calls the component makes on its project and on the project's
    parts (the base class, the dependencies, the default task, the
    tsconfig for development and the linter), which are declared in other
    files: each call is recorded with its arguments. *)
Inductive ProjectCall : Type :=
| SuperComponent
| AddDevDeps (dep : string)
| DefaultTaskExec (command : string)
| TsconfigDevAddInclude (pattern : string)
| EslintAddLintPattern (pattern : string)
| EslintAllowDevDeps (pattern : string)
| EslintAddIgnorePattern (pattern : string)
| EslintAddOverride (files : list string) (rules : list (string * string)).

Section Component.
Context {C : Collaborators}.

(** What the component reads of a [TypeScriptProject]: the output
    directory, the bootstrap descriptor, the file name of the tsconfig for
    development, and whether the project has a default task and a
    linter. *)
Record TypeScriptProject : Type := mkProject {
  projectOutdir : string;
  projectInitProject : option Bootstrap;
  tsconfigDevFileName : string;
  defaultTask : bool;
  eslint : bool
}.

(** The private fields of the component. *)
Record ProjenrcComponent : Type := mkInstance {
  _tsProject : TypeScriptProject;
  this_rcfile : string;
  _projenCodeDir : string
}.

(** The filesystem world and the calls made on the project so far. *)
Record Host : Type := mkHost {
  world : World;
  projectCalls : list ProjectCall
}.

(** [receiver?.method(args)]: the call is made when the receiver is
    there. *)
Definition optionally (present : bool) (call : ProjectCall) : list ProjectCall :=
  if present then [call] else [].

(** What [generateProjenrc] reads of the component. *)
Definition generatorOf (this : ProjenrcComponent) : Component :=
  mkComponent (projectOutdir (_tsProject this))
              (projectInitProject (_tsProject this)) (this_rcfile this).

(** The constructor: the fields are set, [ts-node] is added, the default
    task (when there is one) is told to run the file, and the file is
    generated; an error of the generation leaves the constructor. *)
Definition construct (project : TypeScriptProject) (options : ProjenrcOptions)
           (h : Host) : Outcome RenderError ProjenrcComponent * Host :=
  let this :=
    mkInstance project
      (default ".projenrc.ts" (filename options))
      (default "projenrc" (projenCodeDir options)) in
  let made :=
    projectCalls h
      ++ [SuperComponent]
      ++ [AddDevDeps "ts-node"]
      ++ optionally (defaultTask project)
           (DefaultTaskExec
              ("ts-node --project " +:+ tsconfigDevFileName project +:+ " "
                 +:+ this_rcfile this)) in
  match generateProjenrc (generatorOf this) (world h) with
  | (Returned _, w) => (Returned this, mkHost w made)
  | (Thrown e, w) => (Thrown e, mkHost w made)
  end.

(** [preSynthesize]: the calls it makes, in order. *)
Definition preSynthesize (this : ProjenrcComponent) : list ProjectCall :=
  let lint := eslint (_tsProject this) in
  [TsconfigDevAddInclude (this_rcfile this)]
    ++ [TsconfigDevAddInclude (_projenCodeDir this +:+ "/**/*.ts")]
    ++ optionally lint (EslintAddLintPattern (_projenCodeDir this))
    ++ optionally lint (EslintAddLintPattern (this_rcfile this))
    ++ optionally lint (EslintAllowDevDeps (this_rcfile this))
    ++ optionally lint (EslintAllowDevDeps (_projenCodeDir this +:+ "/**/*.ts"))
    ++ optionally lint (EslintAddIgnorePattern ("!" +:+ this_rcfile this))
    ++ optionally lint
         (EslintAddIgnorePattern ("!" +:+ _projenCodeDir this +:+ "/**/*.ts"))
    ++ optionally lint
         (EslintAddOverride [this_rcfile this]
            [ ("@typescript-eslint/no-require-imports", "off");
              ("import/no-extraneous-dependencies", "off") ]).

End Component.

(** The patterns given to one kind of call. *)
Definition includes (cs : list ProjectCall) : list string :=
  flat_map (fun c => match c with TsconfigDevAddInclude p => [p] | _ => [] end) cs.
Definition devDepsAllowed (cs : list ProjectCall) : list string :=
  flat_map (fun c => match c with EslintAllowDevDeps p => [p] | _ => [] end) cs.
Definition ignorePatterns (cs : list ProjectCall) : list string :=
  flat_map (fun c => match c with EslintAddIgnorePattern p => [p] | _ => [] end) cs.
Definition lintPatterns (cs : list ProjectCall) : list string :=
  flat_map (fun c => match c with EslintAddLintPattern p => [p] | _ => [] end) cs.
Definition overrides (cs : list ProjectCall)
  : list (list string * list (string * string)) :=
  flat_map (fun c => match c with EslintAddOverride f r => [(f, r)] | _ => [] end) cs.

(** The call is made on the linter. *)
Definition onEslint (c : ProjectCall) : bool :=
  match c with
  | EslintAddLintPattern _ | EslintAllowDevDeps _ | EslintAddIgnorePattern _
  | EslintAddOverride _ _ => true
  | _ => false
  end.

End Lifecycle.

(* ===================================================================== *)
(** ** The inputs of the step builders and the keys they are emitted as   *)
(* ===================================================================== *)

Module StepInputs.
Import JS.

(** The value the caller gave for an input of the [with] options. *)
Definition given (options : Object) (input : string) : Value :=
  opt_get (prop "with" options) input.

(** The plain inputs of [checkout] with the key each is emitted under. *)
Definition checkoutKeys : list (string * string) :=
  [ ("fetchDepth", "fetch-depth"); ("token", "token"); ("ref", "ref");
    ("repository", "repository") ].

(** The inputs of [uploadArtifact] that have no default, with the key
    each is emitted under. *)
Definition uploadKeys : list (string * string) :=
  [ ("name", "name"); ("path", "path");
    ("ifNoFilesFound", "if-no-files-found");
    ("retentionDays", "retention-days");
    ("compressionLevel", "compression-level") ].

(** The object literal [uploadArtifact] compacts. *)
Definition uploadPlain (options : Object) : Object :=
  [ ("name", given options "name");
    ("path", given options "path");
    ("overwrite", coalesce (given options "overwrite") (Bool true));
    ("if-no-files-found", given options "ifNoFilesFound");
    ("retention-days", given options "retentionDays");
    ("compression-level", given options "compressionLevel") ].

End StepInputs.

(* ===================================================================== *)
(** * Properties                                                          *)
(* ===================================================================== *)

(** ** Splitting and joining *)

Section SplitJoin.
Variable sep : ascii.

Lemma split_not_nil (s : string) : Str.split sep s <> [].
Proof.
  induction s as [|c rest IH]; simpl; [discriminate|].
  destruct (Ascii.eqb c sep); [discriminate|].
  destruct (Str.split sep rest); discriminate.
Qed.

Lemma join_cons (x y : string) (l : list string) :
  Str.join (String sep "") (x :: y :: l)
  = x +:+ String sep (Str.join (String sep "") (y :: l)).
Proof. reflexivity. Qed.

(** Joining the segments with the separator gives the string back. *)
Lemma join_split (s : string) :
  Str.join (String sep "") (Str.split sep s) = s.
Proof.
  induction s as [|c rest IH]; [reflexivity|].
  simpl. pose proof (split_not_nil rest) as Hne.
  destruct (Ascii.eqb c sep) eqn:Hc.
  - apply Ascii.eqb_eq in Hc. subst c.
    destruct (Str.split sep rest) as [|seg segs]; [congruence|].
    rewrite join_cons, IH. reflexivity.
  - destruct (Str.split sep rest) as [|seg segs]; [congruence|].
    destruct segs as [|seg' segs].
    + simpl in *. congruence.
    + rewrite join_cons in *. rewrite <- IH. reflexivity.
Qed.

(** The first segment has no separator in it. *)
Lemma split_head_free (s m : string) (segs : list string) :
  Str.split sep s = m :: segs -> Str.free_of sep m = true.
Proof.
  revert m segs. induction s as [|c rest IH]; simpl; intros m segs H.
  - injection H as <- _. reflexivity.
  - destruct (Ascii.eqb c sep) eqn:Hc.
    + injection H as <- _. reflexivity.
    + destruct (Str.split sep rest) as [|seg segs'] eqn:Hs.
      * injection H as <- _. simpl. rewrite Hc. reflexivity.
      * injection H as <- _. simpl. rewrite Hc. simpl. eapply IH. reflexivity.
Qed.

(** A string without separator is its own single segment. *)
Lemma split_free (s : string) :
  Str.free_of sep s = true -> Str.split sep s = [s].
Proof.
  induction s as [|c rest IH]; [reflexivity|].
  simpl. intros H. apply andb_prop in H as [Hc Hrest].
  apply negb_true_iff in Hc. rewrite Hc, (IH Hrest). reflexivity.
Qed.

(** Splitting after a separator-free prefix. *)
Lemma split_app (m rest : string) :
  Str.free_of sep m = true ->
  Str.split sep (m +:+ String sep rest) = m :: Str.split sep rest.
Proof.
  induction m as [|c m IH]; simpl; intros H.
  - rewrite Ascii.eqb_refl. reflexivity.
  - apply andb_prop in H as [Hc Hm]. apply negb_true_iff in Hc.
    rewrite Hc, (IH Hm). reflexivity.
Qed.

(** With two segments or more, the string is its first segment, the
    separator, and the other segments joined. *)
Lemma split_two (s m : string) (segs : list string) :
  Str.split sep s = m :: segs -> (2 <= length (Str.split sep s))%nat ->
  s = m +:+ String sep (Str.join (String sep "") segs)
  /\ head (Str.split sep (Str.join (String sep "") segs)) = head segs.
Proof.
  intros Hs Hlen. pose proof (join_split s) as Hj.
  pose proof (split_head_free _ _ _ Hs) as Hfree.
  rewrite Hs in Hj, Hlen.
  destruct segs as [|seg segs]; [simpl in Hlen; lia|].
  rewrite join_cons in Hj. split; [congruence|].
  rewrite <- Hj in Hs. rewrite split_app in Hs by assumption.
  injection Hs as Hs. exact (f_equal head Hs).
Qed.

End SplitJoin.

(** ** The generator, case by case *)

Section GeneratorCases.
Import Projenrc.
Context {C : Collaborators}.
Implicit Types (this : Component) (w : World) (b : Bootstrap).

Lemma writes_app (cs ds : list FsCall) : writes (cs ++ ds) = writes cs ++ writes ds.
Proof. unfold writes. apply flat_map_app. Qed.

Lemma writes_checked this w : writes (calls (checked this w)) = writes (calls w).
Proof. simpl. rewrite writes_app. simpl. apply app_nil_r. Qed.

(** The two no-argument pushes leave the array as it is. *)
Lemma fileLines_eq b (r : string) (imps : ModuleImports) :
  fileLines b r imps
  = asEsmImports imps ++ [constructorLine (className b) r; "project.synth();"].
Proof.
  unfold fileLines, push. simpl. rewrite !app_nil_r, <- app_assoc. reflexivity.
Qed.

Lemma generate_file_present this w :
  is_Some (files w !! rcpath this) ->
  generateProjenrc this w = (Returned tt, checked this w).
Proof.
  intros H. unfold generateProjenrc, mbind, eff_bind, bind, existsSync.
  fold (rcpath this). rewrite bool_decide_eq_true_2 by exact H. reflexivity.
Qed.

Lemma generate_no_bootstrap this w :
  files w !! rcpath this = None -> initProject this = None ->
  generateProjenrc this w = (Returned tt, checked this w).
Proof.
  intros H Hb. unfold generateProjenrc, mbind, eff_bind, bind, existsSync.
  fold (rcpath this). rewrite bool_decide_eq_false_2.
  - rewrite Hb. reflexivity.
  - rewrite H. intros [x Hx]. discriminate.
Qed.

Lemma generate_render_throws this w b (e : RenderError) :
  files w !! rcpath this = None -> initProject this = Some b ->
  renderJavaScriptOptions (args b) (type b) (comments b) = inl e ->
  generateProjenrc this w = (Thrown e, checked this w).
Proof.
  intros H Hb Hr. unfold generateProjenrc, mbind, eff_bind, bind, existsSync.
  fold (rcpath this). rewrite bool_decide_eq_false_2.
  - rewrite Hb. unfold lift. rewrite Hr. reflexivity.
  - rewrite H. intros [x Hx]. discriminate.
Qed.

Lemma generate_render_returns this w b (r : string) (imps : ModuleImports) :
  files w !! rcpath this = None -> initProject this = Some b ->
  renderJavaScriptOptions (args b) (type b) (comments b) = inr (r, imps) ->
  generateProjenrc this w
  = (Returned tt,
     written this
       (Str.join Str.nl
          (asEsmImports (imports_add (moduleName b) (importName b) imps)
             ++ [constructorLine (className b) r; "project.synth();"])) w).
Proof.
  intros H Hb Hr. unfold generateProjenrc, mbind, eff_bind, bind, existsSync.
  fold (rcpath this). rewrite bool_decide_eq_false_2.
  - rewrite Hb. unfold lift. rewrite Hr. simpl. rewrite fileLines_eq.
    reflexivity.
  - rewrite H. intros [x Hx]. discriminate.
Qed.

End GeneratorCases.

(** ** The generator: claims *)

Section GeneratorClaims.
Import Projenrc.
Context {C : Collaborators}.
Implicit Types (this : Component) (w : World) (b : Bootstrap).

(** C1. When a file already exists at the target path, [generateProjenrc]
    returns normally, makes a single filesystem call (the existence
    check: no read, no write), leaves every file as it was and logs
    nothing; a second call in the resulting world does the same. *)
Theorem generate_existing_file_is_noop this w :
  is_Some (files w !! rcpath this) ->
  let first := generateProjenrc this w in
  let second := generateProjenrc this (snd first) in
  fst first = Returned tt
  /\ files (snd first) = files w
  /\ calls (snd first) = calls w ++ [ExistsSync (rcpath this)]
  /\ writes (calls (snd first)) = writes (calls w)
  /\ infos (snd first) = infos w
  /\ fst second = Returned tt
  /\ files (snd second) = files w
  /\ calls (snd second)
     = calls w ++ [ExistsSync (rcpath this); ExistsSync (rcpath this)]
  /\ writes (calls (snd second)) = writes (calls w)
  /\ infos (snd second) = infos w.
Proof.
  intros H first second. subst first second.
  rewrite (generate_file_present this w H). cbn [fst snd].
  rewrite (generate_file_present this (checked this w)) by exact H.
  cbn [fst snd]. rewrite !writes_checked. simpl.
  rewrite <- app_assoc. simpl. repeat split; reflexivity.
Qed.

(** C3. For a fully-qualified name of two dot-segments or more, the
    import module is the first segment, the constructed symbol path is
    the rest of the name after the first dot, and the imported symbol is
    the first segment of that rest; the file is written with the import
    registered and the statement [const project = new <path>(<options>);].
    For ["pkg.sub.Foo"]: symbol [sub] from module [pkg] and
    [const project = new sub.Foo(<options>);]. *)
Theorem generate_splits_qualified_name this w b (r : string)
        (imps : ModuleImports) :
  files w !! rcpath this = None ->
  initProject this = Some b ->
  renderJavaScriptOptions (args b) (type b) (comments b) = inr (r, imps) ->
  (2 <= length (parts b))%nat ->
  (exists m s : string,
      moduleName b = Some m /\ importName b = Some s
      /\ Str.free_of "." m = true
      /\ fqn b = m +:+ "." +:+ className b
      /\ head (Str.split "." (className b)) = Some s
      /\ generateProjenrc this w
         = (Returned tt,
            written this
              (Str.join Str.nl
                 (asEsmImports (imports_add (Some m) (Some s) imps)
                    ++ [ "const project = new " +:+ className b +:+ "("
                           +:+ r +:+ ");";
                         "project.synth();" ])) w))
  /\ (fqn b = "pkg.sub.Foo" ->
      files (snd (generateProjenrc this w)) !! rcpath this
      = Some (Str.join Str.nl
                (asEsmImports (imports_add (Some "pkg") (Some "sub") imps)
                   ++ [ "const project = new sub.Foo(" +:+ r +:+ ");";
                        "project.synth();" ]))).
Proof.
  intros Hnone Hb Hr Hlen.
  rewrite (generate_render_returns this w b r imps Hnone Hb Hr).
  split.
  - unfold moduleName, importName, className.
    destruct (parts b) as [|m segs] eqn:Hparts; [simpl in Hlen; lia|].
    destruct (split_two "." (fqn b) m segs Hparts) as [Hfqn Hhead].
    { unfold parts in Hparts. rewrite Hparts. exact Hlen. }
    destruct segs as [|s segs]; [simpl in Hlen; lia|].
    exists m, s. simpl drop. repeat split.
    + exact (split_head_free "." _ _ _ Hparts).
    + exact Hfqn.
    + exact Hhead.
  - intros Hfqn. unfold moduleName, importName, className, parts.
    rewrite Hfqn. cbn [snd written files].
    rewrite lookup_insert_eq. reflexivity.
Qed.

(** C4. When the renderer throws, [generateProjenrc] throws the same
    error, and the only filesystem call it has made is the existence
    check: no file is written or changed, nothing is logged.  A call
    that does write has a render that returned. *)
Theorem generate_render_failure_propagates this w b (e : RenderError) :
  files w !! rcpath this = None ->
  initProject this = Some b ->
  renderJavaScriptOptions (args b) (type b) (comments b) = inl e ->
  fst (generateProjenrc this w) = Thrown e
  /\ files (snd (generateProjenrc this w)) = files w
  /\ calls (snd (generateProjenrc this w))
     = calls w ++ [ExistsSync (rcpath this)]
  /\ writes (calls (snd (generateProjenrc this w))) = writes (calls w)
  /\ infos (snd (generateProjenrc this w)) = infos w
  /\ (forall w',
         writes (calls (snd (generateProjenrc this w'))) <> writes (calls w') ->
         exists r imps,
           renderJavaScriptOptions (args b) (type b) (comments b)
           = inr (r, imps)).
Proof.
  intros Hnone Hb Hr.
  rewrite (generate_render_throws this w b e Hnone Hb Hr). cbn [fst snd].
  rewrite writes_checked. repeat split.
  intros w' Hw'. exfalso. apply Hw'.
  destruct (files w' !! rcpath this) as [data|] eqn:Hfile.
  - rewrite generate_file_present by (rewrite Hfile; eauto).
    apply writes_checked.
  - rewrite (generate_render_throws this w' b e Hfile Hb Hr).
    apply writes_checked.
Qed.

(** C10. For a fully-qualified name without a dot, [generateProjenrc]
    raises nothing and writes the file: the module is the whole name,
    the imported symbol is undefined, the symbol path is the empty string
    and the constructor statement is [const project = new (<options>);]. *)
Theorem generate_single_segment this w b (r : string) (imps : ModuleImports) :
  files w !! rcpath this = None ->
  initProject this = Some b ->
  renderJavaScriptOptions (args b) (type b) (comments b) = inr (r, imps) ->
  Str.free_of "." (fqn b) = true ->
  moduleName b = Some (fqn b)
  /\ importName b = None
  /\ className b = ""
  /\ generateProjenrc this w
     = (Returned tt,
        written this
          (Str.join Str.nl
             (asEsmImports (imports_add (Some (fqn b)) None imps)
                ++ [ "const project = new (" +:+ r +:+ ");";
                     "project.synth();" ])) w)
  /\ files (snd (generateProjenrc this w)) !! rcpath this
     = Some (Str.join Str.nl
               (asEsmImports (imports_add (Some (fqn b)) None imps)
                  ++ [ "const project = new (" +:+ r +:+ ");";
                       "project.synth();" ])).
Proof.
  intros Hnone Hb Hr Hfree.
  rewrite (generate_render_returns this w b r imps Hnone Hb Hr).
  unfold moduleName, importName, className, parts.
  rewrite (split_free "." (fqn b) Hfree). cbn [snd written files].
  rewrite lookup_insert_eq. repeat split; reflexivity.
Qed.

End GeneratorClaims.

(** ** The generator run on a sample project *)

Section GeneratorRuns.
Import Projenrc.

Lemma sample_path (fqn : string) (a : option string) :
  rcpath (Reference.component fqn a) = "/repo/.projenrc.ts".
Proof. reflexivity. Qed.

Lemma sample_file_present (fqn : string) (a : option string) :
  is_Some (files Reference.userWorld !! rcpath (Reference.component fqn a)).
Proof. exists "// mine". reflexivity. Defined.

Lemma sample_file_absent (fqn : string) (a : option string) :
  files Reference.emptyWorld !! rcpath (Reference.component fqn a) = None.
Proof. reflexivity. Defined.

(** C2. On the descriptor ["pkg.sub.Foo"] with options rendered as [{}]
    the file written has three lines, the import, the constructor
    statement and [project.synth();], with no blank line between them:
    it is not the layout with the two separators. *)
Theorem generate_writes_no_blank_separator :
  let this := Reference.component "pkg.sub.Foo" (Some "{}") in
  let out := generateProjenrc this Reference.emptyWorld in
  fst out = Returned tt
  /\ files (snd out) !! "/repo/.projenrc.ts"
     = Some (Str.join Str.nl
               [ "import { sub } from " +:+ Str.dq +:+ "pkg" +:+ Str.dq +:+ ";";
                 "const project = new sub.Foo({});";
                 "project.synth();" ])
  /\ files (snd out) !! "/repo/.projenrc.ts"
     <> Some (specLayout
                [ "import { sub } from " +:+ Str.dq +:+ "pkg" +:+ Str.dq +:+ ";" ]
                "const project = new sub.Foo({});").
Proof.
  intros this out. subst out.
  rewrite (generate_render_returns this Reference.emptyWorld
             (Reference.component_bootstrap "pkg.sub.Foo" (Some "{}")) "{}" []
             (sample_file_absent _ _) eq_refl eq_refl).
  cbn [fst snd written files].
  change (rcpath this) with "/repo/.projenrc.ts".
  rewrite lookup_insert_eq.
  repeat split. vm_compute. discriminate.
Qed.

Lemma generate_existing_file_is_noop_witness :
  let this := Reference.component "pkg.sub.Foo" (Some "{}") in
  is_Some (files Reference.userWorld !! rcpath this)
  /\ fst (generateProjenrc this Reference.userWorld) = Returned tt
  /\ files (snd (generateProjenrc this Reference.userWorld))
     = files Reference.userWorld
  /\ writes (calls (snd (generateProjenrc this
                           (snd (generateProjenrc this Reference.userWorld)))))
     = [].
Proof.
  intros this.
  pose proof (generate_existing_file_is_noop this Reference.userWorld
                (sample_file_present _ _)) as H.
  cbv zeta in H.
  destruct H as (H1 & H2 & _ & _ & _ & _ & _ & _ & H9 & _).
  split; [apply sample_file_present|]. repeat split; assumption.
Defined.

Lemma generate_splits_qualified_name_witness :
  let this := Reference.component "pkg.sub.Foo" (Some "{}") in
  let b := Reference.component_bootstrap "pkg.sub.Foo" (Some "{}") in
  (files Reference.emptyWorld !! rcpath this = None
   /\ initProject this = Some b
   /\ renderJavaScriptOptions (args b) (type b) (comments b) = inr ("{}", [])
   /\ (2 <= length (parts b))%nat)
  /\ files (snd (generateProjenrc this Reference.emptyWorld)) !! rcpath this
     = Some (Str.join Str.nl
               [ "import { sub } from " +:+ Str.dq +:+ "pkg" +:+ Str.dq +:+ ";";
                 "const project = new sub.Foo({});";
                 "project.synth();" ]).
Proof.
  intros this b.
  assert (2 <= length (parts b))%nat as Hlen by (vm_compute; lia).
  split; [repeat split; exact Hlen|].
  exact (proj2 (generate_splits_qualified_name this Reference.emptyWorld b
                  "{}" [] (sample_file_absent _ _) eq_refl eq_refl Hlen)
           eq_refl).
Defined.

Lemma generate_render_failure_propagates_witness :
  let this := Reference.component "pkg.sub.Foo" None in
  let b := Reference.component_bootstrap "pkg.sub.Foo" None in
  (files Reference.emptyWorld !! rcpath this = None
   /\ initProject this = Some b
   /\ renderJavaScriptOptions (args b) (type b) (comments b)
      = inl "cannot render")
  /\ fst (generateProjenrc this Reference.emptyWorld) = Thrown "cannot render"
  /\ files (snd (generateProjenrc this Reference.emptyWorld)) = ∅
  /\ writes (calls (snd (generateProjenrc this Reference.emptyWorld))) = [].
Proof.
  intros this b. split; [repeat split|].
  destruct (generate_render_failure_propagates this Reference.emptyWorld b
              "cannot render" (sample_file_absent _ _) eq_refl eq_refl)
    as (H1 & H2 & _ & H4 & _).
  repeat split; assumption.
Defined.

Lemma generate_single_segment_witness :
  let this := Reference.component "pkg" (Some "{}") in
  let b := Reference.component_bootstrap "pkg" (Some "{}") in
  (files Reference.emptyWorld !! rcpath this = None
   /\ initProject this = Some b
   /\ renderJavaScriptOptions (args b) (type b) (comments b) = inr ("{}", [])
   /\ Str.free_of "." (fqn b) = true)
  /\ fst (generateProjenrc this Reference.emptyWorld) = Returned tt
  /\ files (snd (generateProjenrc this Reference.emptyWorld)) !! rcpath this
     = Some (Str.join Str.nl
               [ "import {  } from " +:+ Str.dq +:+ "pkg" +:+ Str.dq +:+ ";";
                 "const project = new ({});";
                 "project.synth();" ]).
Proof.
  intros this b. split; [repeat split|].
  destruct (generate_single_segment this Reference.emptyWorld b "{}" []
              (sample_file_absent _ _) eq_refl eq_refl eq_refl)
    as (_ & _ & _ & Hrun & Hfile).
  split; [rewrite Hrun; reflexivity | exact Hfile].
Defined.

End GeneratorRuns.

(** ** Objects *)

Section Objects.
Import JS.
Implicit Types (o : Object) (k : string) (v : Value).

Lemma has_keys k o : has k o = true <-> In k (keys o).
Proof.
  induction o as [|[k' v'] rest IH]; simpl.
  - split; [discriminate | tauto].
  - destruct (String.eqb k' k) eqn:Hk.
    + apply String.eqb_eq in Hk. tauto.
    + apply String.eqb_neq in Hk. rewrite IH. split; [tauto|].
      intros [Heq | Hin]; [contradiction | exact Hin].
Qed.

Lemma has_not_keys k o : ~ In k (keys o) -> has k o = false.
Proof.
  intros H. destruct (has k o) eqn:Hh; [|reflexivity].
  apply has_keys in Hh. contradiction.
Qed.

Lemma has_app k o o' : has k (o ++ o') = has k o || has k o'.
Proof.
  induction o as [|[k' v'] rest IH]; simpl; [reflexivity|].
  destruct (String.eqb k' k); [reflexivity | exact IH].
Qed.

Lemma prop_app_r k o o' : has k o = false -> prop k (o ++ o') = prop k o'.
Proof.
  induction o as [|[k' v'] rest IH]; simpl; [reflexivity|].
  destruct (String.eqb k' k); [discriminate | exact IH].
Qed.

(** Compaction only removes properties ... *)
Lemma has_removed k o :
  has k o = false -> has k (removeNullOrUndefinedProperties o) = false.
Proof.
  unfold removeNullOrUndefinedProperties.
  induction o as [|[k' v'] rest IH]; simpl; [reflexivity|].
  destruct (String.eqb k' k) eqn:Hk; [discriminate|]. intros H.
  rewrite filter_cons. destruct (decide _); simpl; [rewrite Hk|]; auto.
Qed.

(** ... and what it keeps is neither null nor undefined. *)
Lemma removed_allPresent o :
  WorkflowSteps.allPresent (removeNullOrUndefinedProperties o).
Proof.
  unfold WorkflowSteps.allPresent, removeNullOrUndefinedProperties.
  apply Forall_forall. intros kv Hin.
  apply list_elem_of_filter in Hin as [Hkv _]. exact Hkv.
Qed.

Lemma removed_app o o' :
  removeNullOrUndefinedProperties (o ++ o')
  = removeNullOrUndefinedProperties o ++ removeNullOrUndefinedProperties o'.
Proof. apply filter_app. Qed.

Lemma removed_absent k v o :
  nullish v = true ->
  removeNullOrUndefinedProperties ((k, v) :: o)
  = removeNullOrUndefinedProperties o.
Proof.
  intros H. unfold removeNullOrUndefinedProperties.
  rewrite filter_cons. destruct (decide _) as [Hd|]; [|reflexivity].
  simpl in Hd. congruence.
Qed.

Lemma removed_present k v o :
  nullish v = false ->
  removeNullOrUndefinedProperties ((k, v) :: o)
  = (k, v) :: removeNullOrUndefinedProperties o.
Proof.
  intros H. unfold removeNullOrUndefinedProperties.
  rewrite filter_cons. destruct (decide _) as [|Hd]; [reflexivity|].
  simpl in Hd. contradiction.
Qed.

Lemma coalesce_present v d : nullish d = false -> nullish (coalesce v d) = false.
Proof. unfold coalesce. destruct (nullish v) eqn:Hv; auto. Qed.

Lemma nullish_not_truthy v : nullish v = true -> truthy v = false.
Proof. destruct v; simpl; congruence. Qed.

End Objects.

(** ** The step builders *)

Section StepBuilders.
Import JS WorkflowSteps.
Implicit Types (options : Object) (k : string).

Example checkout_default :
  checkout [] =
  [ ("continueOnError", Undefined); ("env", Undefined); ("id", Undefined);
    ("if", Undefined); ("name", Str "Checkout");
    ("timeoutMinutes", Undefined); ("workingDirectory", Undefined);
    ("uses", Str "actions/checkout@v3"); ("with", Undefined) ].
Proof. reflexivity. Qed.

Example checkout_extra_fields :
  checkout [ ("with", Obj [ ("lfs", Bool true); ("ref", Null) ]);
             ("shell", Str "bash"); ("name", Null) ] =
  [ ("continueOnError", Undefined); ("env", Undefined); ("id", Undefined);
    ("if", Undefined); ("name", Str "Checkout");
    ("timeoutMinutes", Undefined); ("workingDirectory", Undefined);
    ("uses", Str "actions/checkout@v3");
    ("with", Obj [ ("lfs", Bool true) ]) ].
Proof. reflexivity. Qed.

Lemma checkout_with options :
  prop "with" (checkout options)
  = if (0 <? length (keys (checkoutWith options)))%nat
    then Obj (checkoutWith options) else Undefined.
Proof. reflexivity. Qed.

Lemma withOf_checkout options : withOf (checkout options) = checkoutWith options.
Proof.
  unfold withOf. rewrite checkout_with.
  destruct (checkoutWith options); reflexivity.
Qed.

Lemma withOf_uploadArtifact options :
  withOf (uploadArtifact options) = uploadArtifactWith options.
Proof. reflexivity. Qed.

Lemma checkoutWith_split options :
  checkoutWith options
  = removeNullOrUndefinedProperties (checkoutPlain options)
      ++ (if truthy (opt_get (prop "with" options) "lfs")
          then [ ("lfs", Bool true) ] else []).
Proof.
  unfold checkoutWith.
  destruct (truthy (opt_get (prop "with" options) "lfs")).
  - change (literal [] _) with (checkoutPlain options ++ [ ("lfs", Bool true) ]).
    rewrite removed_app. reflexivity.
  - change (literal [] _) with (checkoutPlain options ++ []).
    rewrite removed_app. reflexivity.
Qed.

Lemma checkoutWith_lfs options :
  has "lfs" (checkoutWith options) = truthy (opt_get (prop "with" options) "lfs")
  /\ (truthy (opt_get (prop "with" options) "lfs") = true ->
      prop "lfs" (checkoutWith options) = Bool true).
Proof.
  rewrite checkoutWith_split.
  assert (has "lfs" (removeNullOrUndefinedProperties (checkoutPlain options))
          = false) as Hplain by (apply has_removed; reflexivity).
  rewrite has_app, Hplain, (prop_app_r _ _ _ Hplain).
  destruct (truthy _); split; intros; try reflexivity; discriminate.
Qed.

Lemma uploadArtifactWith_overwrite options :
  has "overwrite" (uploadArtifactWith options) = true
  /\ prop "overwrite" (uploadArtifactWith options)
     = coalesce (opt_get (prop "with" options) "overwrite") (Bool true).
Proof.
  unfold uploadArtifactWith.
  change (literal [] ?l) with l.
  assert (nullish (coalesce (opt_get (prop "with" options) "overwrite")
                     (Bool true)) = false) as Hov
      by (apply coalesce_present; reflexivity).
  destruct (nullish (opt_get (prop "with" options) "name")) eqn:Hname;
    destruct (nullish (opt_get (prop "with" options) "path")) eqn:Hpath;
    repeat first [ rewrite (removed_absent "name") by assumption
                 | rewrite (removed_present "name") by assumption
                 | rewrite (removed_absent "path") by assumption
                 | rewrite (removed_present "path") by assumption
                 | rewrite (removed_present "overwrite") by assumption ];
    split; reflexivity.
Qed.

End StepBuilders.

(** ** The step builders: claims *)

Section StepBuilderClaims.
Import JS WorkflowSteps.
Implicit Types (options : Object) (k : string).

(** C5, as stated, fails for [uploadArtifact]: with [path] alone, every
    optional input absent, the [with] field is not absent but the map
    [{ path: "dist", overwrite: true }]. *)
Lemma upload_with_is_never_absent :
  let options := [ ("with", Obj [ ("path", Str "dist") ]) ] in
  inputsAbsent uploadOptionalInputs options = true
  /\ prop "with" (uploadArtifact options)
     = Obj [ ("path", Str "dist"); ("overwrite", Bool true) ]
  /\ prop "with" (uploadArtifact options) <> Undefined.
Proof. repeat split. discriminate. Qed.

(** C5, amended. For every call of [checkout] and of [uploadArtifact] no
    property of the emitted [with] map is null or undefined.  For
    [checkout], a call whose inputs are all absent yields [with]
    undefined, and [with] is never the empty map.  For [uploadArtifact]
    the [with] map is always emitted and always has [overwrite], which
    is [true] when the caller gave none. *)
Theorem with_map_is_compact options :
  allPresent (withOf (checkout options))
  /\ allPresent (withOf (uploadArtifact options))
  /\ (inputsAbsent checkoutInputs options = true ->
      prop "with" (checkout options) = Undefined)
  /\ prop "with" (checkout options) <> Obj []
  /\ prop "with" (uploadArtifact options) = Obj (uploadArtifactWith options)
  /\ has "overwrite" (uploadArtifactWith options) = true
  /\ (nullish (opt_get (prop "with" options) "overwrite") = true ->
      prop "overwrite" (uploadArtifactWith options) = Bool true).
Proof.
  split; [rewrite withOf_checkout; apply removed_allPresent|].
  split; [rewrite withOf_uploadArtifact; apply removed_allPresent|].
  split.
  { unfold inputsAbsent, checkoutInputs. cbn [forallb]. intros H.
    repeat (apply andb_prop in H as [? H]).
    rewrite checkout_with, checkoutWith_split.
    rewrite nullish_not_truthy by assumption. unfold checkoutPlain.
    rewrite !removed_absent by assumption. reflexivity. }
  split.
  { rewrite checkout_with. destruct (checkoutWith options); simpl; discriminate. }
  split; [reflexivity|].
  destruct (uploadArtifactWith_overwrite options) as [Hhas Hprop].
  split; [exact Hhas|].
  intros Hnull. rewrite Hprop. unfold coalesce. rewrite Hnull. reflexivity.
Qed.

(** C6. [uploadArtifact({ with: { path: "dist" } })] uses
    [actions/upload-artifact@v4] and its parameter map is exactly
    [path = "dist"] and [overwrite = true]: none of [name],
    [if-no-files-found], [retention-days], [compression-level]. *)
Theorem uploadArtifact_path_only :
  let step := uploadArtifact [ ("with", Obj [ ("path", Str "dist") ]) ] in
  prop "uses" step = Str "actions/upload-artifact@v4"
  /\ prop "with" step = Obj [ ("path", Str "dist"); ("overwrite", Bool true) ]
  /\ prop "overwrite" (withOf step) = Bool true
  /\ prop "path" (withOf step) = Str "dist"
  /\ has "name" (withOf step) = false
  /\ has "if-no-files-found" (withOf step) = false
  /\ has "retention-days" (withOf step) = false
  /\ has "compression-level" (withOf step) = false
  /\ keys (withOf step) = [ "path"; "overwrite" ].
Proof. repeat split. Qed.

(** C7. For every call of [checkout]: when the [lfs] option is [true] the
    parameter map has the entry [lfs = true]; when it is omitted or
    [false] the parameter map has no [lfs] key. *)
Theorem checkout_lfs_only_when_true options :
  (opt_get (prop "with" options) "lfs" = Bool true ->
   has "lfs" (withOf (checkout options)) = true
   /\ prop "lfs" (withOf (checkout options)) = Bool true
   /\ exists w, prop "with" (checkout options) = Obj w
                /\ prop "lfs" w = Bool true)
  /\ (opt_get (prop "with" options) "lfs" = Undefined
      \/ opt_get (prop "with" options) "lfs" = Bool false ->
      has "lfs" (withOf (checkout options)) = false).
Proof.
  rewrite withOf_checkout.
  destruct (checkoutWith_lfs options) as [Hhas Hprop].
  split.
  - intros Hlfs. rewrite Hlfs in Hhas, Hprop. simpl in Hhas, Hprop.
    split; [exact Hhas|]. split; [exact (Hprop eq_refl)|].
    exists (checkoutWith options). split; [|exact (Hprop eq_refl)].
    rewrite checkout_with.
    destruct (checkoutWith options); [discriminate | reflexivity].
  - intros [Hlfs | Hlfs]; rewrite Hlfs in Hhas; exact Hhas.
Qed.

(** C8. The [run] script of [tagExists("v1.2.3", {})] is three lines
    joined by newlines: the assignment of TAG, the and-or list, and
    [cat $GITHUB_OUTPUT].  The second line is the list
    [(test && query && (echo true)) || (echo false)]; whatever the test
    and the query answer, running it makes exactly one of the two output
    assignments, [exists=true] when both succeed and [exists=false]
    otherwise. *)
Theorem tagExists_script :
  prop "run" (tagExists "v1.2.3" [])
  = Str (Str.join Str.nl
           [ "TAG=v1.2.3";
             "([ ! -z " +:+ Str.dq +:+ "$TAG" +:+ Str.dq
               +:+ " ] && git ls-remote -q --exit-code --tags origin $TAG && (echo "
               +:+ Str.dq +:+ "exists=true" +:+ Str.dq
               +:+ " >> $GITHUB_OUTPUT)) || (echo "
               +:+ Str.dq +:+ "exists=false" +:+ Str.dq
               +:+ " >> $GITHUB_OUTPUT)";
             "cat $GITHUB_OUTPUT" ])
  /\ tagExistsLines "v1.2.3"
     = [ "TAG=v1.2.3"; Sh.render Sh.tagCheck; "cat $GITHUB_OUTPUT" ]
  /\ Str.split (ascii_of_nat 10) (Str.join Str.nl (tagExistsLines "v1.2.3"))
     = tagExistsLines "v1.2.3"
  /\ (forall varSet tagOnRemote : bool,
         Sh.assignments
           (snd (Sh.run (Sh.runtime varSet tagOnRemote) Sh.tagCheck))
         = [ Sh.echoExists (if varSet && tagOnRemote then "true" else "false") ]).
Proof.
  split; [reflexivity|]. split; [reflexivity|]. split; [reflexivity|].
  intros [|] [|]; reflexivity.
Qed.

(** C9. The common portion of every emitted step is built by
    [buildJobStepConfig]: its keys are exactly the seven of the
    allowlist, each with the value the options give it, so no other
    field of the options object is a key of it; the emitted step has
    these keys and the builder's own ([uses] and [with], or [run]). *)
Theorem buildJobStepConfig_keeps_allowlist options :
  keys (buildJobStepConfig options) = allowlist
  /\ (forall k, In k allowlist ->
                prop k (buildJobStepConfig options) = prop k options)
  /\ (forall k, ~ In k allowlist -> has k (buildJobStepConfig options) = false)
  /\ keys (checkout options) = allowlist ++ [ "uses"; "with" ]
  /\ keys (uploadArtifact options) = allowlist ++ [ "uses"; "with" ]
  /\ (forall tag, keys (tagExists tag options) = allowlist ++ [ "run" ])
  /\ (forall identity,
         keys (setupGitIdentity options identity) = allowlist ++ [ "run" ])
  /\ (forall k, ~ In k (allowlist ++ [ "uses"; "with" ]) ->
                has k (checkout options) = false
                /\ has k (uploadArtifact options) = false).
Proof.
  split; [reflexivity|]. split.
  { intros k Hk. simpl in Hk.
    repeat (destruct Hk as [<- | Hk]; [reflexivity|]). contradiction. }
  split; [intros k Hk; apply has_not_keys; exact Hk|].
  split; [reflexivity|]. split; [reflexivity|].
  split; [reflexivity|]. split; [reflexivity|].
  intros k Hk. split; apply has_not_keys; exact Hk.
Qed.

End StepBuilderClaims.

(* ===================================================================== *)
(** * Further properties                                                  *)
(* ===================================================================== *)

(** ** The generator on every world *)

Section GeneratorFrame.
Import Projenrc.
Context {C : Collaborators}.
Implicit Types (this : Component) (w : World) (b : Bootstrap).

(** A call either only looked for the file, or found none and wrote it. *)
Lemma generate_cases this w :
  (snd (generateProjenrc this w) = checked this w
   /\ (fst (generateProjenrc this w) = Returned tt
       \/ exists b e,
            files w !! rcpath this = None /\ initProject this = Some b
            /\ renderJavaScriptOptions (args b) (type b) (comments b) = inl e
            /\ fst (generateProjenrc this w) = Thrown e))
  \/ (exists data,
         files w !! rcpath this = None
         /\ generateProjenrc this w = (Returned tt, written this data w)).
Proof.
  destruct (files w !! rcpath this) as [d|] eqn:Hfile.
  - left. rewrite generate_file_present by (rewrite Hfile; eauto). auto.
  - destruct (initProject this) as [b|] eqn:Hb.
    + destruct (renderJavaScriptOptions (args b) (type b) (comments b))
        as [e | [r imps]] eqn:Hr.
      * left. rewrite (generate_render_throws this w b e Hfile Hb Hr).
        split; [reflexivity|]. right. exists b, e. auto.
      * right. eexists. split; [reflexivity|].
        apply (generate_render_returns this w b r imps Hfile Hb Hr).
    + left. rewrite (generate_no_bootstrap this w Hfile Hb). auto.
Qed.

(** X1. When no file is at the target path and the project has no
    bootstrap descriptor, [generateProjenrc] returns normally after the
    existence check: it writes nothing and logs nothing. *)
Theorem generate_missing_bootstrap_is_noop this w :
  files w !! rcpath this = None ->
  initProject this = None ->
  fst (generateProjenrc this w) = Returned tt
  /\ files (snd (generateProjenrc this w)) = files w
  /\ calls (snd (generateProjenrc this w)) = calls w ++ [ExistsSync (rcpath this)]
  /\ infos (snd (generateProjenrc this w)) = infos w.
Proof.
  intros Hfile Hb. rewrite (generate_no_bootstrap this w Hfile Hb).
  repeat split.
Qed.

(** X2. Whatever the outcome of [generateProjenrc], a file that was
    there before the call is there after it with the same content. *)
Theorem generate_keeps_existing_files this w (p d : string) :
  files w !! p = Some d ->
  files (snd (generateProjenrc this w)) !! p = Some d.
Proof.
  intros Hp. destruct (generate_cases this w) as [[Hw _] | (data & Hnone & Hrun)].
  - rewrite Hw. exact Hp.
  - rewrite Hrun. cbn [snd written files].
    rewrite lookup_insert_ne; [exact Hp|]. intros <-. congruence.
Qed.

(** X3. [generateProjenrc] creates, changes or removes no file at a path
    other than the target path. *)
Theorem generate_leaves_other_paths this w (p : string) :
  p <> rcpath this ->
  files (snd (generateProjenrc this w)) !! p = files w !! p.
Proof.
  intros Hp. destruct (generate_cases this w) as [[Hw _] | (data & _ & Hrun)].
  - rewrite Hw. reflexivity.
  - rewrite Hrun. cbn [snd written files]. apply lookup_insert_ne. congruence.
Qed.

(** X4. Whatever a first call of [generateProjenrc] did, a second call
    right after it writes nothing, logs nothing and leaves the files as
    the first call left them. *)
Theorem generate_second_call_is_silent this w :
  let first := snd (generateProjenrc this w) in
  let second := snd (generateProjenrc this first) in
  files second = files first
  /\ writes (calls second) = writes (calls first)
  /\ infos second = infos first.
Proof.
  intros first second. subst first second.
  destruct (files w !! rcpath this) as [d|] eqn:Hfile.
  - rewrite (generate_file_present this w) by (rewrite Hfile; eauto).
    cbn [snd]. rewrite (generate_file_present this (checked this w))
      by (simpl; rewrite Hfile; eauto).
    cbn [snd]. rewrite writes_checked. repeat split.
  - destruct (initProject this) as [b|] eqn:Hb.
    + destruct (renderJavaScriptOptions (args b) (type b) (comments b))
        as [e | [r imps]] eqn:Hr.
      * rewrite (generate_render_throws this w b e Hfile Hb Hr). cbn [snd].
        rewrite (generate_render_throws this (checked this w) b e Hfile Hb Hr).
        cbn [snd]. rewrite writes_checked. repeat split.
      * rewrite (generate_render_returns this w b r imps Hfile Hb Hr).
        cbn [snd]. rewrite generate_file_present
          by (simpl; rewrite lookup_insert_eq; eauto).
        cbn [snd]. rewrite writes_checked. repeat split.
    + rewrite (generate_no_bootstrap this w Hfile Hb). cbn [snd].
      rewrite (generate_no_bootstrap this (checked this w) Hfile Hb).
      cbn [snd]. rewrite writes_checked. repeat split.
Qed.



End GeneratorFrame.

Section GeneratorFrameRuns.
Import Projenrc.

Lemma generate_missing_bootstrap_is_noop_witness :
  let this := mkComponent "/repo" None ".projenrc.ts" in
  (files Reference.emptyWorld !! rcpath this = None /\ initProject this = None)
  /\ fst (generateProjenrc this Reference.emptyWorld) = Returned tt
  /\ files (snd (generateProjenrc this Reference.emptyWorld)) = ∅.
Proof.
  intros this. split; [split; reflexivity|].
  destruct (generate_missing_bootstrap_is_noop this Reference.emptyWorld
              eq_refl eq_refl) as (H1 & H2 & _).
  split; assumption.
Defined.

Lemma generate_keeps_existing_files_witness :
  let this := Reference.component "pkg.sub.Foo" (Some "{}") in
  let w := mkWorld {[ "/repo/README.md" := "# repo" ]} [] [] in
  files w !! "/repo/README.md" = Some "# repo"
  /\ files (snd (generateProjenrc this w)) !! "/repo/README.md" = Some "# repo".
Proof.
  intros this w.
  assert (files w !! "/repo/README.md" = Some "# repo") as H by reflexivity.
  split; [exact H|].
  exact (generate_keeps_existing_files this w "/repo/README.md" "# repo" H).
Defined.

Lemma generate_leaves_other_paths_witness :
  let this := Reference.component "pkg.sub.Foo" (Some "{}") in
  "/repo/package.json" <> rcpath this
  /\ files (snd (generateProjenrc this Reference.emptyWorld)) !! "/repo/package.json"
     = None.
Proof.
  intros this.
  assert ("/repo/package.json" <> rcpath this) as H by discriminate.
  split; [exact H|].
  exact (generate_leaves_other_paths this Reference.emptyWorld
           "/repo/package.json" H).
Defined.


End GeneratorFrameRuns.

(** ** The component: construction and pre-synthesis *)

Section LifecycleFacts.
Import Projenrc Lifecycle.
Context {C : Collaborators}.
Implicit Types (project : TypeScriptProject) (options : ProjenrcOptions)
         (h : Host) (this : ProjenrcComponent).

(** The calls the constructor makes on the project, whatever the
    generation does. *)
Lemma construct_calls project options h :
  projectCalls (snd (construct project options h))
  = projectCalls h
      ++ [SuperComponent; AddDevDeps "ts-node"]
      ++ optionally (defaultTask project)
           (DefaultTaskExec
              ("ts-node --project " +:+ tsconfigDevFileName project +:+ " "
                 +:+ default ".projenrc.ts" (filename options))).
Proof.
  unfold construct. destruct (generateProjenrc _ _) as [[u | e] w]; reflexivity.
Qed.

Lemma construct_world project options h :
  world (snd (construct project options h))
  = snd (generateProjenrc
           (mkComponent (projectOutdir project) (projectInitProject project)
              (default ".projenrc.ts" (filename options)))
           (world h)).
Proof.
  unfold construct, generatorOf. cbn [_tsProject this_rcfile].
  destruct (generateProjenrc _ _) as [[u | e] w]; reflexivity.
Qed.

Lemma construct_outcome project options h :
  fst (construct project options h)
  = match fst (generateProjenrc
                 (mkComponent (projectOutdir project) (projectInitProject project)
                    (default ".projenrc.ts" (filename options)))
                 (world h)) with
    | Returned _ =>
        Returned (mkInstance project
                    (default ".projenrc.ts" (filename options))
                    (default "projenrc" (projenCodeDir options)))
    | Thrown e => Thrown e
    end.
Proof.
  unfold construct, generatorOf. cbn [_tsProject this_rcfile].
  destruct (generateProjenrc _ _) as [[u | e] w]; reflexivity.
Qed.

(** X7. When rendering the bootstrap descriptor throws during
    construction, the constructor throws that error and no file is
    written, but the project has already been changed: [ts-node] was
    added to its development dependencies and, when it has a default
    task, that task was told to run the project definition file. *)
Theorem construct_fails_after_project_calls project options h
        (b : Bootstrap) (e : RenderError) :
  files (world h)
    !! resolve (projectOutdir project) (default ".projenrc.ts" (filename options))
  = None ->
  projectInitProject project = Some b ->
  renderJavaScriptOptions (args b) (type b) (comments b) = inl e ->
  let after := snd (construct project options h) in
  fst (construct project options h) = Thrown e
  /\ files (world after) = files (world h)
  /\ writes (calls (world after)) = writes (calls (world h))
  /\ In (AddDevDeps "ts-node") (projectCalls after)
  /\ (defaultTask project = true ->
      In (DefaultTaskExec
            ("ts-node --project " +:+ tsconfigDevFileName project +:+ " "
               +:+ default ".projenrc.ts" (filename options)))
         (projectCalls after)).
Proof.
  intros Hfile Hb Hr after. subst after.
  rewrite construct_outcome, construct_world, construct_calls.
  rewrite (generate_render_throws
             (mkComponent (projectOutdir project) (projectInitProject project)
                (default ".projenrc.ts" (filename options)))
             (world h) b e Hfile Hb Hr).
  cbn [fst snd]. rewrite writes_checked. repeat split.
  - apply in_or_app. right. simpl. auto.
  - intros Htask. rewrite Htask. apply in_or_app. right. simpl. auto.
Qed.

(** X8. A component that was constructed uses one file name, the given
    [filename] or [.projenrc.ts], everywhere: it is the file the default
    task runs with [ts-node], the file pre-synthesis includes in the
    tsconfig for development, and the only file construction may have
    written, at that name resolved against the output directory.  A
    project without default task gets no task command. *)
Theorem construct_uses_one_file_name project options h this :
  fst (construct project options h) = Returned this ->
  let after := snd (construct project options h) in
  let target := resolve (projectOutdir project) (this_rcfile this) in
  this_rcfile this = default ".projenrc.ts" (filename options)
  /\ _projenCodeDir this = default "projenrc" (projenCodeDir options)
  /\ projectCalls after
     = projectCalls h
         ++ [SuperComponent; AddDevDeps "ts-node"]
         ++ (if defaultTask project
             then [DefaultTaskExec
                     ("ts-node --project " +:+ tsconfigDevFileName project
                        +:+ " " +:+ this_rcfile this)]
             else [])
  /\ In (this_rcfile this) (includes (preSynthesize this))
  /\ (writes (calls (world after)) = writes (calls (world h))
      \/ exists data,
           writes (calls (world after))
           = writes (calls (world h)) ++ [(target, data)])
  /\ (forall p, p <> target -> files (world after) !! p = files (world h) !! p).
Proof.
  intros Hret after target. subst after target.
  rewrite construct_outcome in Hret.
  rewrite construct_world, construct_calls.
  set (gen := mkComponent (projectOutdir project) (projectInitProject project)
                (default ".projenrc.ts" (filename options))) in *.
  destruct (fst (generateProjenrc gen (world h))) as [u|e] eqn:Hgen;
    [|discriminate].
  injection Hret as <-. cbn [this_rcfile _projenCodeDir].
  split; [reflexivity|]. split; [reflexivity|]. split; [reflexivity|].
  split; [simpl; auto|].
  change (resolve (projectOutdir project)
            (default ".projenrc.ts" (filename options))) with (rcpath gen).
  destruct (generate_cases gen (world h)) as [[Hw _] | (data & _ & Hrun)].
  - rewrite Hw, writes_checked. split; [left; reflexivity|].
    intros p _. reflexivity.
  - rewrite Hrun. cbn [snd written files calls]. split.
    + right. exists data. rewrite !writes_app. simpl. rewrite app_nil_r.
      reflexivity.
    + intros p Hp. apply lookup_insert_ne. congruence.
Qed.

(** X9. Pre-synthesis includes the project definition file and the glob
    of the code directory in the tsconfig for development.  On a project
    with a linter it allows development dependencies in exactly the
    included patterns, un-ignores exactly them (each negated with [!]),
    lints the code directory and the file, and adds one override, for
    the file alone; on a project without a linter it makes no call on
    a linter. *)
Theorem preSynthesize_patterns this :
  let made := preSynthesize this in
  includes made = [ this_rcfile this; _projenCodeDir this +:+ "/**/*.ts" ]
  /\ devDepsAllowed made = (if eslint (_tsProject this) then includes made else [])
  /\ ignorePatterns made
     = (if eslint (_tsProject this)
        then map (fun p => "!" +:+ p) (includes made) else [])
  /\ lintPatterns made
     = (if eslint (_tsProject this)
        then [ _projenCodeDir this; this_rcfile this ] else [])
  /\ map fst (overrides made)
     = (if eslint (_tsProject this) then [ [this_rcfile this] ] else [])
  /\ existsb onEslint made = eslint (_tsProject this)
  /\ length made = (if eslint (_tsProject this) then 9 else 2)%nat.
Proof.
  intros made. subst made. unfold preSynthesize.
  destruct (eslint (_tsProject this)); repeat split.
Qed.

End LifecycleFacts.

Section LifecycleRuns.
Import Projenrc Lifecycle.

Lemma construct_fails_after_project_calls_witness :
  let b := Reference.component_bootstrap "pkg.sub.Foo" None in
  let project := mkProject "/repo" (Some b) "tsconfig.dev.json" true true in
  let h := mkHost Reference.emptyWorld [] in
  let after := snd (construct project (mkOptions None None) h) in
  fst (construct project (mkOptions None None) h) = Thrown "cannot render"
  /\ files (world after) = ∅
  /\ In (AddDevDeps "ts-node") (projectCalls after)
  /\ In (DefaultTaskExec "ts-node --project tsconfig.dev.json .projenrc.ts")
        (projectCalls after).
Proof.
  intros b project h after.
  destruct (construct_fails_after_project_calls project (mkOptions None None) h
              b "cannot render" eq_refl eq_refl eq_refl)
    as (H1 & H2 & _ & H4 & H5).
  split; [exact H1|]. split; [exact H2|].
  split; [exact H4 | exact (H5 eq_refl)].
Defined.

Lemma construct_uses_one_file_name_witness :
  let b := Reference.component_bootstrap "pkg.sub.Foo" (Some "{}") in
  let project := mkProject "/repo" (Some b) "tsconfig.dev.json" false true in
  let options := mkOptions (Some "rc.ts") None in
  let h := mkHost Reference.emptyWorld [] in
  let this := mkInstance project "rc.ts" "projenrc" in
  fst (construct project options h) = Returned this
  /\ projectCalls (snd (construct project options h))
     = [SuperComponent; AddDevDeps "ts-node"]
  /\ In "rc.ts" (includes (preSynthesize this)).
Proof.
  intros b project options h this.
  assert (fst (construct project options h) = Returned this) as H by reflexivity.
  split; [exact H|].
  destruct (construct_uses_one_file_name project options h this H)
    as (_ & _ & H3 & H4 & _).
  split; [exact H3 | exact H4].
Defined.

End LifecycleRuns.

(** ** Objects and strings, continued *)

Section ObjectUpdates.
Import JS.
Implicit Types (o : Object) (k : string) (v : Value).

(** Reading a property that was just set gives the value set. *)
Lemma prop_set_eq k v o : prop k (set k v o) = v.
Proof.
  induction o as [|[k' v'] rest IH]; simpl.
  - rewrite String.eqb_refl. reflexivity.
  - destruct (String.eqb k' k) eqn:Hk; simpl; rewrite Hk; [reflexivity | exact IH].
Qed.

(** Setting a property changes no other property. *)
Lemma prop_set_ne k k' v o : k <> k' -> prop k' (set k v o) = prop k' o.
Proof.
  intros Hne. induction o as [|[k0 v0] rest IH]; simpl.
  - apply String.eqb_neq in Hne. rewrite Hne. reflexivity.
  - destruct (String.eqb k0 k) eqn:Hk; simpl.
    + apply String.eqb_eq in Hk. subst k0.
      apply String.eqb_neq in Hne. rewrite Hne. reflexivity.
    + destruct (String.eqb k0 k'); [reflexivity | exact IH].
Qed.

Lemma prop_absent k o : has k o = false -> prop k o = Undefined.
Proof.
  induction o as [|[k' v'] rest IH]; simpl; [reflexivity|].
  destruct (String.eqb k' k); [discriminate | exact IH].
Qed.

Lemma prop_app_l k o o' : has k o = true -> prop k (o ++ o') = prop k o.
Proof.
  induction o as [|[k' v'] rest IH]; simpl; [discriminate|].
  destruct (String.eqb k' k); [reflexivity | exact IH].
Qed.

(** On an object without repeated keys, compaction keeps a property
    exactly when its value is neither null nor undefined ... *)
Lemma has_removed_exact k o :
  NoDup (keys o) ->
  has k (removeNullOrUndefinedProperties o)
  = has k o && negb (nullish (prop k o)).
Proof.
  induction o as [|[k' v'] rest IH]; intros Hnd; [reflexivity|].
  apply NoDup_cons in Hnd as [Hnotin Hnd]. simpl.
  destruct (String.eqb k' k) eqn:Hk.
  - apply String.eqb_eq in Hk. subst k'.
    destruct (nullish v') eqn:Hv.
    + rewrite removed_absent by exact Hv. apply has_removed, has_not_keys.
      intros Hin. apply Hnotin, list_elem_of_In. exact Hin.
    + rewrite removed_present by exact Hv. simpl.
      rewrite String.eqb_refl. reflexivity.
  - destruct (nullish v') eqn:Hv.
    + rewrite removed_absent by exact Hv. apply IH, Hnd.
    + rewrite removed_present by exact Hv. simpl. rewrite Hk. apply IH, Hnd.
Qed.

(** ... and then with the value it had. *)
Lemma prop_removed k o :
  NoDup (keys o) ->
  prop k (removeNullOrUndefinedProperties o)
  = if nullish (prop k o) then Undefined else prop k o.
Proof.
  induction o as [|[k' v'] rest IH]; intros Hnd; [reflexivity|].
  apply NoDup_cons in Hnd as [Hnotin Hnd]. simpl.
  destruct (String.eqb k' k) eqn:Hk.
  - apply String.eqb_eq in Hk. subst k'.
    destruct (nullish v') eqn:Hv.
    + rewrite removed_absent by exact Hv. apply prop_absent, has_removed.
      apply has_not_keys. intros Hin. apply Hnotin, list_elem_of_In. exact Hin.
    + rewrite removed_present by exact Hv. simpl.
      rewrite String.eqb_refl. reflexivity.
  - destruct (nullish v') eqn:Hv.
    + rewrite removed_absent by exact Hv. apply IH, Hnd.
    + rewrite removed_present by exact Hv. simpl. rewrite Hk. apply IH, Hnd.
Qed.

End ObjectUpdates.

Section JoinSplit.
Variable sep : ascii.

Lemma free_of_app (a b : string) :
  Str.free_of sep (a +:+ b) = Str.free_of sep a && Str.free_of sep b.
Proof.
  induction a as [|c a IH]; simpl; [reflexivity|].
  rewrite IH. apply andb_assoc.
Qed.

(** Splitting the join of separator-free lines gives the lines back. *)
Lemma split_join (line : string) (lines : list string) :
  Forall (fun l => Str.free_of sep l = true) (line :: lines) ->
  Str.split sep (Str.join (String sep "") (line :: lines)) = line :: lines.
Proof.
  revert line. induction lines as [|next lines IH]; intros line Hfree.
  - apply split_free. apply Forall_cons in Hfree as [H _]. exact H.
  - apply Forall_cons in Hfree as [Hline Hrest].
    rewrite join_cons, split_app by exact Hline.
    rewrite (IH next Hrest). reflexivity.
Qed.

End JoinSplit.

(** ** The step builders on every options object *)

Section StepFields.
Import JS WorkflowSteps StepInputs.
Implicit Types (options : Object) (k : string).

(** An allowlisted field of a step is read from the options after the
    builder put its name (and, for the tag check, its id) on them. *)
Lemma checkout_common options k :
  In k allowlist ->
  prop k (checkout options)
  = prop k (set "name" (coalesce (prop "name" options) (Str "Checkout")) options).
Proof.
  intros H. simpl in H.
  repeat (destruct H as [<- | H]; [reflexivity|]). contradiction.
Qed.

Lemma uploadArtifact_common options k :
  In k allowlist ->
  prop k (uploadArtifact options)
  = prop k (set "name" (coalesce (prop "name" options) (Str "Upload artifact"))
              options).
Proof.
  intros H. simpl in H.
  repeat (destruct H as [<- | H]; [reflexivity|]). contradiction.
Qed.

Lemma setupGitIdentity_common options identity k :
  In k allowlist ->
  prop k (setupGitIdentity options identity)
  = prop k (set "name" (coalesce (prop "name" options) (Str "Set git identity"))
              options).
Proof.
  intros H. simpl in H.
  repeat (destruct H as [<- | H]; [reflexivity|]). contradiction.
Qed.

Lemma tagExists_common tag options k :
  In k allowlist ->
  prop k (tagExists tag options)
  = prop k (set "id" (coalesce (prop "id" options) (Str "check-tag"))
              (set "name"
                 (coalesce (prop "name" options) (Str "Check if tag exists"))
                 options)).
Proof.
  intros H. simpl in H.
  repeat (destruct H as [<- | H]; [reflexivity|]). contradiction.
Qed.

Lemma name_allowed : In "name" allowlist.
Proof. simpl. auto 10. Qed.

Lemma id_allowed : In "id" allowlist.
Proof. simpl. auto 10. Qed.

(** X10. Every builder names its step with the name the caller gave,
    and with its own default when that name is missing or null:
    [Checkout], [Upload artifact], [Set git identity],
    [Check if tag exists]; the tag check takes its id the same way, with
    default [check-tag]. *)
Theorem step_name_given_or_default options :
  prop "name" (checkout options)
  = coalesce (prop "name" options) (Str "Checkout")
  /\ prop "name" (uploadArtifact options)
     = coalesce (prop "name" options) (Str "Upload artifact")
  /\ (forall identity,
         prop "name" (setupGitIdentity options identity)
         = coalesce (prop "name" options) (Str "Set git identity"))
  /\ (forall tag,
         prop "name" (tagExists tag options)
         = coalesce (prop "name" options) (Str "Check if tag exists")
         /\ prop "id" (tagExists tag options)
            = coalesce (prop "id" options) (Str "check-tag")).
Proof.
  split; [rewrite (checkout_common _ _ name_allowed); apply prop_set_eq|].
  split; [rewrite (uploadArtifact_common _ _ name_allowed); apply prop_set_eq|].
  split.
  - intros identity.
    rewrite (setupGitIdentity_common _ _ _ name_allowed). apply prop_set_eq.
  - intros tag. split.
    + rewrite (tagExists_common _ _ _ name_allowed).
      rewrite prop_set_ne by discriminate. apply prop_set_eq.
    + rewrite (tagExists_common _ _ _ id_allowed). apply prop_set_eq.
Qed.

(** X11. The other allowlisted fields reach the step as the caller gave
    them: for an allowlisted field other than [name], every builder emits
    the value of the options (undefined when they have none); the tag
    check does so for every such field other than [id]. *)
Theorem step_common_fields_pass_through options k :
  In k allowlist ->
  k <> "name" ->
  prop k (checkout options) = prop k options
  /\ prop k (uploadArtifact options) = prop k options
  /\ (forall identity, prop k (setupGitIdentity options identity) = prop k options)
  /\ (k <> "id" -> forall tag, prop k (tagExists tag options) = prop k options).
Proof.
  intros Hin Hname.
  split; [rewrite (checkout_common _ _ Hin); apply prop_set_ne; congruence|].
  split; [rewrite (uploadArtifact_common _ _ Hin); apply prop_set_ne; congruence|].
  split.
  - intros identity. rewrite (setupGitIdentity_common _ _ _ Hin).
    apply prop_set_ne. congruence.
  - intros Hid tag. rewrite (tagExists_common _ _ _ Hin).
    rewrite !prop_set_ne by congruence. reflexivity.
Qed.

Lemma step_common_fields_pass_through_witness :
  let options := [ ("if", Str "always()"); ("shell", Str "bash") ] in
  (In "if" allowlist /\ "if" <> "name")
  /\ prop "if" (checkout options) = Str "always()"
  /\ prop "if" (tagExists "v1" options) = Str "always()".
Proof.
  intros options.
  assert (In "if" allowlist) as Hin by (simpl; auto 10).
  assert ("if" <> "name") as Hne by discriminate.
  split; [split; assumption|].
  destruct (step_common_fields_pass_through options "if" Hin Hne)
    as (H1 & _ & _ & H4).
  split; [exact H1|]. apply H4. discriminate.
Defined.

End StepFields.

(** ** The parameter maps on every options object *)

Section StepParameters.
Import JS WorkflowSteps StepInputs.
Implicit Types (options : Object) (k : string).

(** Compaction followed by entries under other keys. *)
Lemma compact_then_extra k (o extra : Object) :
  NoDup (keys o) ->
  has k extra = false ->
  prop k (removeNullOrUndefinedProperties o ++ extra)
  = (if nullish (prop k o) then Undefined else prop k o)
  /\ has k (removeNullOrUndefinedProperties o ++ extra)
     = has k o && negb (nullish (prop k o)).
Proof.
  intros Hnd Hextra.
  rewrite has_app, Hextra, orb_false_r, (has_removed_exact k o Hnd).
  split; [|reflexivity].
  destruct (has k (removeNullOrUndefinedProperties o)) eqn:Hkept.
  - rewrite (prop_app_l _ _ _ Hkept). apply prop_removed, Hnd.
  - rewrite (prop_app_r _ _ _ Hkept), (prop_absent _ _ Hextra).
    rewrite (has_removed_exact k o Hnd) in Hkept.
    destruct (nullish (prop k o)); [reflexivity|].
    rewrite andb_true_r in Hkept. rewrite (prop_absent _ _ Hkept). reflexivity.
Qed.

Lemma checkoutPlain_keys options : NoDup (keys (checkoutPlain options)).
Proof. simpl. compute_done. Qed.

Lemma uploadPlain_keys options : NoDup (keys (uploadPlain options)).
Proof. simpl. compute_done. Qed.

Lemma uploadArtifactWith_plain options :
  uploadArtifactWith options = removeNullOrUndefinedProperties (uploadPlain options).
Proof. reflexivity. Qed.

(** X12. [checkout] leaves [with] undefined exactly when each of
    [fetchDepth], [token], [ref] and [repository] is missing or null and
    [lfs] is not truthy; in every other case [with] is a map. *)
Theorem checkout_with_absent_iff options :
  prop "with" (checkout options) = Undefined
  <-> forallb (fun ik => nullish (given options (fst ik))) checkoutKeys
      && negb (truthy (given options "lfs")) = true.
Proof.
  rewrite checkout_with, checkoutWith_split.
  unfold checkoutPlain, checkoutKeys, given. cbn [forallb fst].
  destruct (nullish (opt_get (prop "with" options) "fetchDepth")) eqn:H1;
    destruct (nullish (opt_get (prop "with" options) "token")) eqn:H2;
    destruct (nullish (opt_get (prop "with" options) "ref")) eqn:H3;
    destruct (nullish (opt_get (prop "with" options) "repository")) eqn:H4;
    destruct (truthy (opt_get (prop "with" options) "lfs")) eqn:H5;
    repeat first [ rewrite removed_absent by assumption
                 | rewrite removed_present by assumption ];
    simpl; split; intros H; try reflexivity; discriminate H.
Qed.

(** X13. Each of the inputs [fetchDepth], [token], [ref], [repository]
    of [checkout] is emitted under its key ([fetch-depth] for the first)
    with the value given, whenever that value is neither null nor
    undefined (a fetch depth of 0 included); otherwise the key is not in
    the parameter map. *)
Theorem checkout_inputs_emitted options (input key : string) :
  In (input, key) checkoutKeys ->
  prop key (withOf (checkout options))
  = (if nullish (given options input) then Undefined else given options input)
  /\ has key (withOf (checkout options)) = negb (nullish (given options input)).
Proof.
  intros Hin. rewrite withOf_checkout, checkoutWith_split.
  assert (has key (if truthy (opt_get (prop "with" options) "lfs")
                   then [ ("lfs", Bool true) ] else []) = false
          /\ prop key (checkoutPlain options) = given options input
          /\ has key (checkoutPlain options) = true) as (Hextra & Hprop & Hhas).
  { simpl in Hin.
    repeat (destruct Hin as [Heq | Hin];
            [injection Heq as <- <-;
             destruct (truthy _); repeat split; reflexivity|]).
    contradiction. }
  destruct (compact_then_extra key _ _ (checkoutPlain_keys options) Hextra)
    as [Hp Hh].
  rewrite Hp, Hh, Hprop, Hhas. split; reflexivity.
Qed.

Lemma checkout_inputs_emitted_witness :
  let options := [ ("with", Obj [ ("fetchDepth", Num 0); ("ref", Null) ]) ] in
  In ("fetchDepth", "fetch-depth") checkoutKeys
  /\ prop "fetch-depth" (withOf (checkout options)) = Num 0
  /\ has "fetch-depth" (withOf (checkout options)) = true.
Proof.
  intros options.
  assert (In ("fetchDepth", "fetch-depth") checkoutKeys) as Hin
      by (simpl; auto).
  split; [exact Hin|].
  exact (checkout_inputs_emitted options "fetchDepth" "fetch-depth" Hin).
Defined.

(** X14. Each of the inputs [name], [path], [ifNoFilesFound],
    [retentionDays], [compressionLevel] of [uploadArtifact] is emitted
    under its key ([if-no-files-found], [retention-days],
    [compression-level] for the last three) with the value given,
    whenever that value is neither null nor undefined; otherwise the key
    is not in the parameter map. *)
Theorem upload_inputs_emitted options (input key : string) :
  In (input, key) uploadKeys ->
  prop key (withOf (uploadArtifact options))
  = (if nullish (given options input) then Undefined else given options input)
  /\ has key (withOf (uploadArtifact options))
     = negb (nullish (given options input)).
Proof.
  intros Hin. rewrite withOf_uploadArtifact, uploadArtifactWith_plain.
  assert (prop key (uploadPlain options) = given options input
          /\ has key (uploadPlain options) = true) as (Hprop & Hhas).
  { simpl in Hin.
    repeat (destruct Hin as [Heq | Hin];
            [injection Heq as <- <-; split; reflexivity|]).
    contradiction. }
  rewrite (prop_removed key _ (uploadPlain_keys options)).
  rewrite (has_removed_exact key _ (uploadPlain_keys options)).
  rewrite Hprop, Hhas. split; reflexivity.
Qed.

Lemma upload_inputs_emitted_witness :
  let options :=
    [ ("with", Obj [ ("path", Str "dist"); ("retentionDays", Num 0);
                     ("name", Null) ]) ] in
  In ("retentionDays", "retention-days") uploadKeys
  /\ prop "retention-days" (withOf (uploadArtifact options)) = Num 0
  /\ has "retention-days" (withOf (uploadArtifact options)) = true.
Proof.
  intros options.
  assert (In ("retentionDays", "retention-days") uploadKeys) as Hin
      by (simpl; auto 10).
  split; [exact Hin|].
  exact (upload_inputs_emitted options "retentionDays" "retention-days" Hin).
Defined.

(** X15. [uploadArtifact] emits [overwrite] with the value the caller
    gave, [false] included, and with [true] only when the caller gave
    none (missing or null). *)
Theorem upload_overwrite_given_or_true options :
  prop "overwrite" (withOf (uploadArtifact options))
  = coalesce (given options "overwrite") (Bool true)
  /\ (given options "overwrite" = Bool false ->
      prop "overwrite" (withOf (uploadArtifact options)) = Bool false)
  /\ (nullish (given options "overwrite") = false ->
      prop "overwrite" (withOf (uploadArtifact options))
      = given options "overwrite").
Proof.
  rewrite withOf_uploadArtifact.
  destruct (uploadArtifactWith_overwrite options) as [_ Hprop].
  unfold given. rewrite Hprop. split; [reflexivity|]. split.
  - intros ->. reflexivity.
  - intros Hgiven. unfold coalesce. rewrite Hgiven. reflexivity.
Qed.

End StepParameters.

(** ** The scripts on every input *)

Section StepScripts.
Import JS WorkflowSteps.
Implicit Types (options : Object).

(** X16. For every tag without a line feed and every options object,
    the [run] script of [tagExists] has exactly three lines: the
    assignment of the tag as given, the and-or list, which does not
    depend on the tag, and [cat $GITHUB_OUTPUT]; the step has neither
    [uses] nor [with]. *)
Theorem tagExists_three_lines (tag : string) options :
  Str.free_of (ascii_of_nat 10) tag = true ->
  exists script,
    prop "run" (tagExists tag options) = Str script
    /\ Str.split (ascii_of_nat 10) script
       = [ "TAG=" +:+ tag; Sh.render Sh.tagCheck; "cat $GITHUB_OUTPUT" ]
    /\ has "uses" (tagExists tag options) = false
    /\ has "with" (tagExists tag options) = false.
Proof.
  intros Hfree. exists (Str.join Str.nl (tagExistsLines tag)).
  split; [reflexivity|]. split; [|split; reflexivity].
  unfold tagExistsLines, Str.nl. rewrite split_join; [reflexivity|].
  repeat constructor.
  rewrite free_of_app, Hfree. reflexivity.
Qed.

Lemma tagExists_three_lines_witness :
  Str.free_of (ascii_of_nat 10) "$(git describe)" = true
  /\ exists script,
       prop "run" (tagExists "$(git describe)" [ ("id", Str "t") ]) = Str script
       /\ Str.split (ascii_of_nat 10) script
          = [ "TAG=$(git describe)"; Sh.render Sh.tagCheck;
              "cat $GITHUB_OUTPUT" ].
Proof.
  split; [reflexivity|].
  destruct (tagExists_three_lines "$(git describe)" [ ("id", Str "t") ] eq_refl)
    as (script & Hrun & Hlines & _).
  exists script. split; assumption.
Defined.

(** X17. For every identity whose name and email have no line feed,
    the [run] script of [setupGitIdentity] has exactly two lines, the
    [git config] of [user.name] and of [user.email], each value put
    between double quotes as given; the step has neither [uses] nor
    [with]. *)
Theorem setupGitIdentity_two_lines options (identity : GitIdentity) :
  Str.free_of (ascii_of_nat 10) (identityName identity) = true ->
  Str.free_of (ascii_of_nat 10) (identityEmail identity) = true ->
  exists script,
    prop "run" (setupGitIdentity options identity) = Str script
    /\ Str.split (ascii_of_nat 10) script
       = [ "git config user.name " +:+ Str.dq +:+ identityName identity
             +:+ Str.dq;
           "git config user.email " +:+ Str.dq +:+ identityEmail identity
             +:+ Str.dq ]
    /\ has "uses" (setupGitIdentity options identity) = false
    /\ has "with" (setupGitIdentity options identity) = false.
Proof.
  intros Hname Hemail. eexists.
  split; [reflexivity|]. split; [|split; reflexivity].
  unfold Str.nl. rewrite split_join; [reflexivity|].
  repeat constructor; rewrite !free_of_app, ?Hname, ?Hemail; reflexivity.
Qed.

Lemma setupGitIdentity_two_lines_witness :
  let identity := mkGitIdentity "github-actions" "github-actions@github.com" in
  (Str.free_of (ascii_of_nat 10) (identityName identity) = true
   /\ Str.free_of (ascii_of_nat 10) (identityEmail identity) = true)
  /\ exists script,
       prop "run" (setupGitIdentity [] identity) = Str script
       /\ length (Str.split (ascii_of_nat 10) script) = 2%nat.
Proof.
  intros identity. split; [split; reflexivity|].
  destruct (setupGitIdentity_two_lines [] identity eq_refl eq_refl)
    as (script & Hrun & Hlines & _).
  exists script. split; [exact Hrun|]. rewrite Hlines. reflexivity.
Defined.

End StepScripts.
